(** * The Corsair adapter of python-rgbkeyboards

    A shallow embedding of [rgbkeyboards/corsair/corsair.py]: the class
    [Corsair], a thin wrapper around the vendor binding [cue_sdk.CUESDK] and
    the keyboard hook [pynput.keyboard.Listener].

    Python objects that reach the adapter untyped are values of [pyval];
    a method is a function from the adapter's state to an outcome (a
    returned value or a raised exception) and the state it leaves behind. *)

From Stdlib Require Import ZArith QArith List String Bool Lia.
Import ListNotations.
Local Close Scope Q_scope.
Local Open Scope string_scope.
Local Open Scope list_scope.
Set Warnings "-register-all".

(** ** Python values *)

(** The values a caller can pass.  A finite float is kept by its rational
    value; [PyObject] is any other object, with what [callable] and [bool]
    say about it. *)
Inductive pyval : Type :=
| PyNone
| PyBool (b : bool)
| PyInt (n : Z)
| PyFloat (q : Q)
| PyStr (s : string)
| PyTuple (items : list pyval)
| PyList (items : list pyval)
| PyDict (items : list (pyval * pyval))
| PyObject (name : string) (is_callable truth : bool).

(** [isinstance(v, int)]: [bool] is a subclass of [int]. *)
Definition isinstance_int (v : pyval) : bool :=
  match v with
  | PyInt _ | PyBool _ => true
  | _ => false
  end.

Definition isinstance_bool (v : pyval) : bool :=
  match v with
  | PyBool _ => true
  | _ => false
  end.

Definition isinstance_dict (v : pyval) : bool :=
  match v with
  | PyDict _ => true
  | _ => false
  end.

(** The number an [int] instance stands for ([True] is 1, [False] is 0). *)
Definition int_value (v : pyval) : option Z :=
  match v with
  | PyInt n => Some n
  | PyBool true => Some 1%Z
  | PyBool false => Some 0%Z
  | _ => None
  end.

(** [callable(v)] *)
Definition callable (v : pyval) : bool :=
  match v with
  | PyObject _ c _ => c
  | _ => false
  end.

(** [bool(v)], the truth value the [if] and [not] of the source test. *)
Definition truthy (v : pyval) : bool :=
  match v with
  | PyNone => false
  | PyBool b => b
  | PyInt n => negb (n =? 0)%Z
  | PyFloat q => negb (Qeq_bool q 0%Q)
  | PyStr s => negb (String.eqb s "")
  | PyTuple l | PyList l => negb (Nat.eqb (List.length l) 0)
  | PyDict l => negb (Nat.eqb (List.length l) 0)
  | PyObject _ _ t => t
  end.

(** [0 < v < 255] on an [int] instance. *)
Definition in_open_range (v : pyval) : bool :=
  match int_value v with
  | Some n => (0 <? n)%Z && (n <? 255)%Z
  | None => false
  end.

(** ** Exceptions and outcomes *)

(** The source raises [ValueError] for every rejected argument and for a
    missing keyboard, and [NotImplementedError] for LED effects; a C
    structure of the vendor binding raises [TypeError] for a field value
    that is not an integer; whatever else the vendor binding or the hook
    raise passes through as [VendorError]. *)
Inductive exn : Type :=
| ValueError (msg : string)
| NotImplementedError (msg : string)
| VendorError (msg : string)
| TypeError (msg : string).

Inductive result (A : Type) : Type :=
| Return (a : A)
| Raise (e : exn).
Arguments Return {A} a.
Arguments Raise {A} e.

(** A method over a state [S]: the outcome and the state left behind.  An
    exception keeps the effects made before it was raised. *)
Definition M (S A : Type) : Type := S -> result A * S.

Definition ret {S A : Type} (a : A) : M S A := fun s => (Return a, s).

Definition raise {S A : Type} (e : exn) : M S A := fun s => (Raise e, s).

(** ** The vendor binding [cue_sdk] *)

(** [cue_sdk.structures.CorsairDeviceInfo] *)
Record CorsairDeviceInfo : Type := {
  dev_type : Z;
  model : string;
  physicalLayout : Z;
  logicalLayout : Z;
  capsMask : Z
}.

(** Modelled from the spec: the vendor structure [CorsairLedColor] of
    [cue_sdk.structures], a color entry: the LED identifier and the three
    channels, as they are read back from the structure. *)
Record CorsairLedColor : Type := {
  ledId : Z;
  led_r : pyval;
  led_g : pyval;
  led_b : pyval
}.

(** What a C [int] field keeps of a Python [int]: its value modulo 2^32,
    read back signed. *)
Definition c_int (n : Z) : Z :=
  ((n + 2147483648) mod 4294967296 - 2147483648)%Z.

(** Storing a value in a C [int] field and reading it back: only an
    [int] instance is taken.  The text of the [TypeError] is the
    interpreter's; only its class is relied on. *)
Definition to_c_int (v : pyval) : result pyval :=
  match int_value v with
  | Some n => Return (PyInt (c_int n))
  | None => Raise (TypeError "an integer is required")
  end.

(** [CorsairLedColor(led, r, g, b)]: the channels go into C [int] fields;
    [led] is an LED identifier of the key table. *)
Definition CorsairLedColor_new (led : Z) (r g b : pyval)
  : result CorsairLedColor :=
  match to_c_int r with
  | Raise e => Raise e
  | Return r' =>
      match to_c_int g with
      | Raise e => Raise e
      | Return g' =>
          match to_c_int b with
          | Raise e => Raise e
          | Return b' =>
              Return {| ledId := led; led_r := r'; led_g := g'; led_b := b' |}
          end
      end
  end.

(** [[CorsairLedColor(i, r, g, b) for i in ids]] *)
Fixpoint led_colors_for (ids : list Z) (r g b : pyval)
  : result (list CorsairLedColor) :=
  match ids with
  | [] => Return []
  | i :: rest =>
      match CorsairLedColor_new i r g b with
      | Raise e => Raise e
      | Return c =>
          match led_colors_for rest r g b with
          | Raise e => Raise e
          | Return cs => Return (c :: cs)
          end
      end
  end.

(** The loaded library as the adapter sees it: the connected devices, the
    exclusive lighting control flag, and the batches submitted so far
    (oldest first). *)
Record CUESDK : Type := {
  devices : list CorsairDeviceInfo;
  exclusive : bool;
  submitted : list (list CorsairLedColor)
}.

Definition get_device_count (lib : CUESDK) : nat :=
  List.length (devices lib).

(** [get_device_info(device_id)]; an index with no device is the
    binding's own failure. *)
Definition get_device_info (lib : CUESDK) (device_id : nat)
  : result CorsairDeviceInfo :=
  match nth_error (devices lib) device_id with
  | Some info => Return info
  | None => Raise (VendorError "no device at this index")
  end.

Definition request_control : M CUESDK pyval :=
  fun lib =>
    (Return (PyBool true),
     {| devices := devices lib; exclusive := true;
        submitted := submitted lib |}).

Definition release_control : M CUESDK pyval :=
  fun lib =>
    (Return (PyBool true),
     {| devices := devices lib; exclusive := false;
        submitted := submitted lib |}).

(** ** The keyboard hook [pynput.keyboard.Listener] *)

(** A listener thread object: the callback it is bound to, whether it was
    started, whether it was told to stop, and how many liveness queries it
    has answered since it was started. *)
Record Listener : Type := {
  on_press : pyval;
  started : bool;
  stopping : bool;
  polls : nat
}.

(** [kb.Listener(on_press=callback)]: constructed, not started. *)
Definition new_Listener (callback : pyval) : Listener :=
  {| on_press := callback; started := false; stopping := false; polls := 0 |}.

(** [listener.start()]: a thread starts once. *)
Definition Listener_start (l : Listener) : result unit * Listener :=
  if started l then
    (Raise (VendorError "threads can only be started once"), l)
  else
    (Return tt,
     {| on_press := on_press l; started := true;
        stopping := stopping l; polls := polls l |}).

(** [listener.stop()] only signals the thread. *)
Definition Listener_stop (l : Listener) : Listener :=
  {| on_press := on_press l; started := started l;
     stopping := true; polls := polls l |}.

(** ** The adapter *)

(** The state of a [Corsair] object. *)
Record Corsair : Type := {
  library : CUESDK;
  _callback : pyval;
  _listener : option Listener
}.

(** [__init__], once the library file is loaded. *)
Definition init (lib : CUESDK) : Corsair :=
  {| library := lib; _callback := PyNone; _listener := None |}.

Definition with_library (st : Corsair) (lib : CUESDK) : Corsair :=
  {| library := lib; _callback := _callback st; _listener := _listener st |}.

Definition with_listener (st : Corsair) (l : Listener) : Corsair :=
  {| library := library st; _callback := _callback st; _listener := Some l |}.

(** A call into the library from a method of the adapter. *)
Definition on_library {A : Type} (m : M CUESDK A) : M Corsair A :=
  fun st => let (r, lib) := m (library st) in (r, with_library st lib).

Section Adapter.

(** The key-name table [keys] of [rgbkeyboards/corsair/keys.py], in the
    order [keys.values()] lists it: key name and LED identifier. *)
Variable keys : list (string * Z).

(** The index [get_device_info()] takes when the caller gives none, for a
    binding that has such a default. *)
Variable default_device_id : nat.

(** What the library answers to a submitted batch. *)
Variable set_led_colors_reply : list CorsairLedColor -> bool.

(** What the hook answers to the [k]-th liveness query on a started
    listener. *)
Variable is_alive_reply : nat -> bool.

(** What [kb.Listener(on_press=callback)] raises when the hook does not
    take the callback; [None] when it constructs the listener. *)
Variable Listener_refuses : pyval -> option exn.

(** [library.set_led_colors(batch)] *)
Definition set_led_colors (batch : list CorsairLedColor) : M CUESDK pyval :=
  fun lib =>
    (Return (PyBool (set_led_colors_reply batch)),
     {| devices := devices lib; exclusive := exclusive lib;
        submitted := submitted lib ++ [batch] |}).

(** [listener.is_alive()]: a thread that was never started is not alive. *)
Definition Listener_is_alive (l : Listener) : bool * Listener :=
  if started l then
    (is_alive_reply (polls l),
     {| on_press := on_press l; started := started l;
        stopping := stopping l; polls := S (polls l) |})
  else (false, l).

(** [keys[key]], [None] when [key not in keys]. *)
Fixpoint keys_find (name : string) (table : list (string * Z)) : option Z :=
  match table with
  | [] => None
  | (k, i) :: rest => if String.eqb k name then Some i else keys_find name rest
  end.

Definition keys_get (key : pyval) : option Z :=
  match key with
  | PyStr name => keys_find name keys
  | _ => None
  end.

(** [keys.values()] *)
Definition keys_values : list Z := map snd keys.

Definition get_brand : string := "corsair".

(** The [for] loop of [get_layout] over the indices still to visit: the
    value of [results] when the loop is left. *)
Fixpoint get_layout_loop (lib : CUESDK) (indices : list nat)
  : result (option CorsairDeviceInfo) :=
  match indices with
  | [] => Return None
  | i :: rest =>
      match get_device_info lib i with
      | Raise e => Raise e
      | Return info =>
          if (dev_type info =? 2)%Z then
            match get_device_info lib default_device_id with
            | Raise e => Raise e
            | Return results => Return (Some results)
            end
          else get_layout_loop lib rest
      end
  end.

Definition get_layout : M Corsair Z :=
  fun st =>
    match get_layout_loop (library st)
            (seq 0 (get_device_count (library st))) with
    | Raise e => (Raise e, st)
    | Return None =>
        (Raise (ValueError "Could not detect a Corsair keyboard"), st)
    | Return (Some results) => (Return (physicalLayout results), st)
    end.

Definition get_device_available : M Corsair bool :=
  fun st =>
    match get_device_info (library st) default_device_id with
    | Raise e => (Raise e, st)
    | Return _ => (Return true, st)
    end.

Definition set_control_device (device_type : pyval) : M Corsair pyval :=
  ret (PyBool true).

Definition set_led_control_enabled (enable : pyval) : M Corsair pyval :=
  if negb (isinstance_bool enable) then
    raise (ValueError "Parameter enable is not bool type")
  else if truthy enable then on_library request_control
  else on_library release_control.

Definition set_led_effect (effect : pyval) : M Corsair pyval :=
  raise (NotImplementedError
           "LED Effects have not yet been implemented for Corsair keyboards").

Definition set_full_led_color (r g b : pyval) : M Corsair pyval :=
  if negb (isinstance_int r) || negb (isinstance_int g)
     || negb (isinstance_int b) then
    raise (ValueError "Parameters passed not all int type")
  else if negb (in_open_range r) || negb (in_open_range g)
          || negb (in_open_range b) then
    raise (ValueError "Parameters not within range")
  else
    match led_colors_for keys_values r g b with
    | Raise e => raise e
    | Return batch => on_library (set_led_colors batch)
    end.

(** The [for] loop of [set_ind_led_color] over the items still to visit,
    [parameter] being the list built so far. *)
Fixpoint set_ind_led_color_loop (items : list (pyval * pyval))
    (parameter : list CorsairLedColor) : result (list CorsairLedColor) :=
  match items with
  | [] => Return parameter
  | (key, value) :: rest =>
      match keys_get key with
      | None => Raise (ValueError "Invalid key found")
      | Some led =>
          match value with
          | PyTuple channels =>
              match channels with
              | [r; g; b] =>
                  if (led =? 0)%Z then set_ind_led_color_loop rest parameter
                  else
                    match CorsairLedColor_new led r g b with
                    | Raise e => Raise e
                    | Return color =>
                        set_ind_led_color_loop rest (parameter ++ [color])
                    end
              | _ => Raise (ValueError "Value found for key not with length 3")
              end
          | _ => Raise (ValueError "Value found for key not tuple")
          end
      end
  end.

Definition set_ind_led_color (leds : pyval) : M Corsair pyval :=
  match leds with
  | PyDict items =>
      match set_ind_led_color_loop items [] with
      | Raise e => raise e
      | Return parameter => on_library (set_led_colors parameter)
      end
  | _ => raise (ValueError "Parameter leds is not a dictionary")
  end.

(** The constructor of the listener is called after [_callback] has
    been assigned: when it raises, the callback stays assigned and the
    listener held before stays in place. *)
Definition set_key_callback (callback : pyval) : M Corsair pyval :=
  fun st =>
    if negb (callable callback) then
      (Raise (ValueError "Parameter callback passed not callable"), st)
    else
      let assigned :=
        {| library := library st; _callback := callback;
           _listener := _listener st |} in
      match Listener_refuses callback with
      | Some e => (Raise e, assigned)
      | None => (Return PyNone, with_listener assigned (new_Listener callback))
      end.

(** [while self._listener.is_alive(): pass], for at most [fuel] queries:
    the listener once a query has answered false, [None] while every
    query so far has answered true. *)
Fixpoint busy_wait (fuel : nat) (l : Listener) : option Listener :=
  match fuel with
  | O => None
  | S fuel' =>
      let (alive, l') := Listener_is_alive l in
      if alive then busy_wait fuel' l' else Some l'
  end.

(** [enable_key_callback(enable)]; [None] when the busy loop has not
    ended within [fuel] liveness queries. *)
Definition enable_key_callback (fuel : nat) (enable : pyval) (st : Corsair)
  : option (result pyval * Corsair) :=
  if negb (truthy (_callback st)) || negb (callable (_callback st)) then
    Some (Raise (ValueError "Callback not set. Please use set_key_callback"),
          st)
  else
    match _listener st with
    | None => Some (Raise (ValueError "Callback set but listener not found"), st)
    | Some l =>
        if truthy enable then
          match Listener_start l with
          | (Raise e, l') => Some (Raise e, with_listener st l')
          | (Return _, l') => Some (Return PyNone, with_listener st l')
          end
        else
          match busy_wait fuel (Listener_stop l) with
          | None => None
          | Some l' => Some (Return PyNone, with_listener st l')
          end
    end.

(** ** Sequences of calls *)

(** The calls a client can make on the adapter. *)
Inductive call : Type :=
| GetLayout
| GetDeviceAvailable
| SetControlDevice (device_type : pyval)
| SetLedControlEnabled (enable : pyval)
| SetLedEffect (effect : pyval)
| SetFullLedColor (r g b : pyval)
| SetIndLedColor (leds : pyval)
| SetKeyCallback (callback : pyval)
| EnableKeyCallback (enable : pyval).

(** The state a call leaves behind, whether it returned or raised; [None]
    when it is still waiting after [fuel] liveness queries. *)
Definition run_call (fuel : nat) (c : call) (st : Corsair) : option Corsair :=
  match c with
  | GetLayout => Some (snd (get_layout st))
  | GetDeviceAvailable => Some (snd (get_device_available st))
  | SetControlDevice d => Some (snd (set_control_device d st))
  | SetLedControlEnabled e => Some (snd (set_led_control_enabled e st))
  | SetLedEffect e => Some (snd (set_led_effect e st))
  | SetFullLedColor r g b => Some (snd (set_full_led_color r g b st))
  | SetIndLedColor leds => Some (snd (set_ind_led_color leds st))
  | SetKeyCallback cb => Some (snd (set_key_callback cb st))
  | EnableKeyCallback e => option_map snd (enable_key_callback fuel e st)
  end.

Fixpoint run_calls (fuel : nat) (cs : list call) (st : Corsair)
  : option Corsair :=
  match cs with
  | [] => Some st
  | c :: rest =>
      match run_call fuel c st with
      | None => None
      | Some st' => run_calls fuel rest st'
      end
  end.

End Adapter.

(** A call that registers a callback: [set_key_callback] with an argument
    that passes its [callable] test. *)
Definition registers (c : call) : bool :=
  match c with
  | SetKeyCallback cb => callable cb
  | _ => false
  end.

(** The adapter has a callback that [enable_key_callback] accepts and a
    listener [l] that was started. *)
Definition running (st : Corsair) (l : Listener) : Prop :=
  truthy (_callback st) = true /\ callable (_callback st) = true /\
  _listener st = Some l /\ started l = true.

Definition is_keyboard (info : CorsairDeviceInfo) : bool :=
  (dev_type info =? 2)%Z.

(** What the specification asks [get_layout] to return: the physical
    layout of the first device of type keyboard in the enumeration. *)
Fixpoint first_keyboard_layout (ds : list CorsairDeviceInfo) : option Z :=
  match ds with
  | [] => None
  | info :: rest =>
      if is_keyboard info then Some (physicalLayout info)
      else first_keyboard_layout rest
  end.

(** The library state after one more batch has been submitted. *)
Definition submit (batch : list CorsairLedColor) (lib : CUESDK) : CUESDK :=
  {| devices := devices lib; exclusive := exclusive lib;
     submitted := submitted lib ++ [batch] |}.

(** ** Vocabulary of the further properties *)

(** The color entry [CorsairLedColor(led, r, g, b)]. *)
Definition led_color (led : Z) (r g b : pyval) : CorsairLedColor :=
  {| ledId := led; led_r := r; led_g := g; led_b := b |}.

(** The entries a mapping asks for: one for each item whose key is in the
    table with a nonzero LED identifier and whose value is a 3-tuple of
    [int] instances, in the order of the items; the channels are the C
    [int] values of the tuple's. *)
Definition led_entries (keys : list (string * Z))
    (items : list (pyval * pyval)) : list CorsairLedColor :=
  flat_map
    (fun item =>
       match keys_get keys (fst item), snd item with
       | Some led, PyTuple [r; g; b] =>
           if (led =? 0)%Z then []
           else
             match int_value r, int_value g, int_value b with
             | Some nr, Some ng, Some nb =>
                 [led_color led (PyInt (c_int nr)) (PyInt (c_int ng))
                    (PyInt (c_int nb))]
             | _, _, _ => []
             end
       | _, _ => []
       end) items.

(** What stops [set_ind_led_color] at one item, in the order it looks:
    the key, then the type of the value, then its length, and last, for a
    key with a nonzero LED identifier, a channel that the color entry
    does not take. *)
Definition item_error (keys : list (string * Z)) (item : pyval * pyval)
  : option exn :=
  match keys_get keys (fst item) with
  | None => Some (ValueError "Invalid key found")
  | Some led =>
      match snd item with
      | PyTuple [r; g; b] =>
          if (led =? 0)%Z then None
          else if isinstance_int r && isinstance_int g && isinstance_int b
               then None
               else Some (TypeError "an integer is required")
      | PyTuple _ => Some (ValueError "Value found for key not with length 3")
      | _ => Some (ValueError "Value found for key not tuple")
      end
  end.


(** The hook takes the callback of the call, when the call is a
    [set_key_callback] that gets as far as constructing a listener. *)
Definition hook_takes (Listener_refuses : pyval -> option exn) (c : call)
  : bool :=
  match c with
  | SetKeyCallback cb =>
      negb (callable cb) ||
      match Listener_refuses cb with
      | None => true
      | Some _ => false
      end
  | _ => true
  end.



(** The mapping that gives every key of the table the color (r, g, b). *)
Definition all_keys_mapping (keys : list (string * Z)) (r g b : pyval)
  : list (pyval * pyval) :=
  map (fun entry : string * Z => (PyStr (fst entry), PyTuple [r; g; b])) keys.

Definition has_led (entry : string * Z) : bool := negb (snd entry =? 0)%Z.

(** A call that may submit a batch. *)
Definition is_lighting_call (c : call) : bool :=
  match c with
  | SetFullLedColor _ _ _ | SetIndLedColor _ => true
  | _ => false
  end.

(** The callback and the listener of the adapter go together: none of
    either, or a callable and a listener bound to it. *)
Definition callback_listener_ok (st : Corsair) : Prop :=
  match _listener st with
  | None => _callback st = PyNone
  | Some l => callable (_callback st) = true /\ on_press l = _callback st
  end.

(** ** Sample data *)

Definition sample_keys : list (string * Z) :=
  [("Escape", 1%Z); ("F1", 2%Z); ("Fn", 0%Z); ("A", 38%Z); ("WinLock", 0%Z)].

Definition a_mouse : CorsairDeviceInfo :=
  {| dev_type := 1; model := "M65 RGB"; physicalLayout := 6;
     logicalLayout := 0; capsMask := 1 |}.

Definition a_keyboard : CorsairDeviceInfo :=
  {| dev_type := 2; model := "K70 RGB"; physicalLayout := 1;
     logicalLayout := 1; capsMask := 1 |}.

Definition a_headset : CorsairDeviceInfo :=
  {| dev_type := 3; model := "VOID"; physicalLayout := 0;
     logicalLayout := 0; capsMask := 0 |}.

Definition sdk_with (ds : list CorsairDeviceInfo) : CUESDK :=
  {| devices := ds; exclusive := false; submitted := [] |}.

Definition always_accepts (batch : list CorsairLedColor) : bool := true.

(** A listener thread that answers three liveness queries with true and
    has ended by the fourth. *)
Definition ends_after_three (k : nat) : bool := Nat.ltb k 3.

Definition on_key : pyval := PyObject "on_key" true true.

Definition a_listener : Listener :=
  {| on_press := on_key; started := true; stopping := false; polls := 0 |}.

(** The adapter with [on_key] registered and its listener started. *)
Definition listening : Corsair :=
  {| library := sdk_with [a_keyboard];
     _callback := on_key;
     _listener := Some a_listener |}.

(** Calls that register nothing: the third is refused, the fourth fails
    for want of a callback. *)
Definition sample_calls : list call :=
  [GetLayout; SetFullLedColor (PyInt 1) (PyInt 2) (PyInt 3);
   SetKeyCallback (PyInt 7); EnableKeyCallback (PyBool false)].

(** The adapter after [sample_calls]. *)
Definition after_sample_calls : Corsair :=
  with_library (init (sdk_with [a_keyboard]))
    (submit
       (map (fun i => {| ledId := i; led_r := PyInt 1;
                         led_g := PyInt 2; led_b := PyInt 3 |})
          (map snd sample_keys))
       (sdk_with [a_keyboard])).

(** A table in which every key has an LED. *)
Definition lit_keys : list (string * Z) :=
  [("Escape", 1%Z); ("F1", 2%Z); ("A", 38%Z)].

(** A hook that takes every callback. *)
Definition accepts_any (callback : pyval) : option exn := None.

(** A callable of three required arguments, and a hook that, like
    pynput's, refuses it. *)
Definition three_args : pyval := PyObject "three_args" true true.

Definition refuses_three_args (callback : pyval) : option exn :=
  match callback with
  | PyObject name _ _ =>
      if String.eqb name "three_args" then Some (ValueError "three_args")
      else None
  | _ => None
  end.

(** A callable object whose truth value is false (an empty callable
    container, say). *)
Definition empty_handler : pyval := PyObject "empty_handler" true false.

(** The adapter with [on_key] registered and its listener not started. *)
Definition registered : Corsair :=
  {| library := sdk_with [a_keyboard];
     _callback := on_key;
     _listener := Some (new_Listener on_key) |}.

(** Registering [on_key] and enabling it, which leaves the adapter as
    [listening]. *)
Definition registering_calls : list call :=
  [SetKeyCallback on_key; EnableKeyCallback (PyBool true)].

(** * Properties *)

(** ** Enumerating the devices *)

Lemma skipn_cons_nth_error {A : Type} (l : list A) (n : nat) (a : A) (rest : list A) :
  skipn n l = a :: rest -> nth_error l n = Some a /\ skipn (S n) l = rest.
Proof.
  revert l; induction n as [|n IH]; intros [|x l] H.
  - discriminate H.
  - inversion H; subst; split; reflexivity.
  - destruct n; discriminate H.
  - change (skipn n l = a :: rest) in H.
    change (nth_error l n = Some a /\ skipn (S n) l = rest).
    apply IH; exact H.
Qed.

Lemma no_keyboard_existsb (ds : list CorsairDeviceInfo) :
  (forall info, In info ds -> dev_type info <> 2%Z) ->
  existsb is_keyboard ds = false.
Proof.
  induction ds as [|info rest IH]; intros H; simpl; [reflexivity|].
  unfold is_keyboard at 1.
  destruct (Z.eqb_spec (dev_type info) 2) as [E|_].
  - exfalso. apply (H info); [left; reflexivity | exact E].
  - simpl. apply IH. intros i Hi. apply H. right; exact Hi.
Qed.

Section Enumeration.

Variable default_device_id : nat.

(** What the loop leaves in [results], read off the devices it has still
    to visit. *)
Lemma get_layout_loop_skipn (lib : CUESDK) (ds : list CorsairDeviceInfo) :
  forall start,
    skipn start (devices lib) = ds ->
    get_layout_loop default_device_id lib (seq start (List.length ds)) =
    if existsb is_keyboard ds then
      match get_device_info lib default_device_id with
      | Raise e => Raise e
      | Return results => Return (Some results)
      end
    else Return None.
Proof.
  induction ds as [|info rest IH]; intros start H; simpl; [reflexivity|].
  destruct (skipn_cons_nth_error _ _ _ _ H) as [Hn Hs].
  unfold get_device_info at 1. rewrite Hn.
  unfold is_keyboard at 1.
  destruct (dev_type info =? 2)%Z; simpl; [reflexivity|].
  apply IH. exact Hs.
Qed.

(** [get_layout] in closed form: once some device is a keyboard, the
    answer is read from the device at the default index. *)
Lemma get_layout_closed_form (st : Corsair) :
  get_layout default_device_id st =
  if existsb is_keyboard (devices (library st)) then
    match nth_error (devices (library st)) default_device_id with
    | Some info => (Return (physicalLayout info), st)
    | None => (Raise (VendorError "no device at this index"), st)
    end
  else (Raise (ValueError "Could not detect a Corsair keyboard"), st).
Proof.
  unfold get_layout, get_device_count.
  rewrite (get_layout_loop_skipn (library st) (devices (library st)) 0 eq_refl).
  destruct (existsb is_keyboard (devices (library st))); [|reflexivity].
  unfold get_device_info.
  destruct (nth_error (devices (library st)) default_device_id); reflexivity.
Qed.

(** C2: over a device list with no device of type keyboard, [get_layout]
    raises the "Could not detect a Corsair keyboard" error (the
    specification's NotFoundError) and leaves the adapter as it was. *)
Theorem get_layout_no_keyboard (st : Corsair) :
  (forall info, In info (devices (library st)) -> dev_type info <> 2%Z) ->
  get_layout default_device_id st =
  (Raise (ValueError "Could not detect a Corsair keyboard"), st).
Proof.
  intros H. rewrite get_layout_closed_form.
  rewrite (no_keyboard_existsb _ H). reflexivity.
Qed.

(** When the first device is the keyboard and the default index is 0, the
    code returns what the specification asks for. *)
Lemma get_layout_keyboard_first (st : Corsair) (info : CorsairDeviceInfo)
    (rest : list CorsairDeviceInfo) :
  default_device_id = 0 ->
  devices (library st) = info :: rest ->
  is_keyboard info = true ->
  get_layout default_device_id st = (Return (physicalLayout info), st) /\
  first_keyboard_layout (devices (library st)) = Some (physicalLayout info).
Proof.
  intros Hd Hds Hk. rewrite get_layout_closed_form, Hds, Hd. simpl.
  rewrite Hk. simpl. split; reflexivity.
Qed.

(** Whatever the default index is, some device list with a keyboard makes
    [get_layout] return the layout of a device that is not the keyboard. *)
Lemma get_layout_misses_keyboard :
  exists ds : list CorsairDeviceInfo,
    first_keyboard_layout ds = Some 1%Z /\
    get_layout default_device_id (init (sdk_with ds)) =
    (Return 6%Z, init (sdk_with ds)).
Proof.
  exists (repeat a_mouse (S default_device_id) ++ [a_keyboard]).
  split.
  - induction (S default_device_id) as [|n IH]; simpl; [reflexivity | exact IH].
  - rewrite get_layout_closed_form.
    change (devices (library (init (sdk_with
              (repeat a_mouse (S default_device_id) ++ [a_keyboard])))))
      with (repeat a_mouse (S default_device_id) ++ [a_keyboard]).
    assert (Hk : existsb is_keyboard
                   (repeat a_mouse (S default_device_id) ++ [a_keyboard]) = true).
    { rewrite existsb_app. apply orb_true_r. }
    assert (Hn : nth_error (repeat a_mouse (S default_device_id) ++ [a_keyboard])
                   default_device_id = Some a_mouse).
    { rewrite nth_error_app1 by (rewrite repeat_length; lia).
      apply nth_error_repeat. lia. }
    rewrite Hk, Hn. reflexivity.
Qed.

End Enumeration.

(** C1: with a mouse enumerated before the keyboard (and the default index
    0), [get_layout] finds the keyboard and then returns the layout of the
    mouse, 6, where the first keyboard's layout is 1. *)
Theorem get_layout_mouse_before_keyboard :
  get_layout 0 (init (sdk_with [a_mouse; a_keyboard])) =
    (Return 6%Z, init (sdk_with [a_mouse; a_keyboard])) /\
  first_keyboard_layout [a_mouse; a_keyboard] = Some 1%Z.
Proof. split; reflexivity. Qed.

Lemma get_layout_no_keyboard_witness :
  get_layout 0 (init (sdk_with [a_mouse; a_headset])) =
  (Raise (ValueError "Could not detect a Corsair keyboard"),
   init (sdk_with [a_mouse; a_headset])).
Proof.
  apply (get_layout_no_keyboard 0 (init (sdk_with [a_mouse; a_headset]))).
  simpl. intros info [H | [H | []]]; subst info; intros E; discriminate E.
Defined.

(** ** Lighting *)

Lemma in_open_range_bounds (v : pyval) :
  in_open_range v = true ->
  exists n, int_value v = Some n /\ (0 < n < 255)%Z.
Proof.
  unfold in_open_range. destruct (int_value v) as [n|]; [|discriminate].
  intros H. apply andb_true_iff in H. destruct H as [H0 H1].
  apply Z.ltb_lt in H0. apply Z.ltb_lt in H1. exists n. split; [reflexivity|lia].
Qed.

Lemma in_open_range_int (n : Z) :
  (1 <= n <= 254)%Z -> in_open_range (PyInt n) = true.
Proof.
  intros H. unfold in_open_range; simpl. apply andb_true_iff.
  split; apply Z.ltb_lt; lia.
Qed.

Lemma int_value_isinstance (v : pyval) (n : Z) :
  int_value v = Some n -> isinstance_int v = true.
Proof. destruct v as [| [|] | | | | | | |]; simpl; congruence. Qed.

(** A channel the range test of [set_full_led_color] lets through is an
    [int] instance other than 0 and 255. *)
Lemma channel_accepted (v : pyval) :
  isinstance_int v = true -> in_open_range v = true ->
  ~ (isinstance_int v = false \/
     int_value v = Some 0%Z \/ int_value v = Some 255%Z).
Proof.
  intros Hi Hr [H | [H | H]].
  - congruence.
  - apply in_open_range_bounds in Hr. destruct Hr as [n [E B]].
    rewrite H in E. inversion E. lia.
  - apply in_open_range_bounds in Hr. destruct Hr as [n [E B]].
    rewrite H in E. inversion E. lia.
Qed.

(** A value within the range of a C [int] is kept as it is. *)
Lemma c_int_small (n : Z) :
  (-2147483648 <= n < 2147483648)%Z -> c_int n = n.
Proof.
  intros H. unfold c_int. rewrite Z.mod_small by lia. lia.
Qed.


Lemma isinstance_int_value (v : pyval) :
  isinstance_int v = true -> exists n, int_value v = Some n.
Proof.
  destruct v as [| [|] | n | | | | | |]; simpl; try discriminate;
    intros _; eexists; reflexivity.
Qed.

(** The structure takes channels that are [int] instances. *)
Lemma CorsairLedColor_new_ints (led : Z) (r g b : pyval) (nr ng nb : Z) :
  int_value r = Some nr -> int_value g = Some ng -> int_value b = Some nb ->
  CorsairLedColor_new led r g b =
  Return {| ledId := led; led_r := PyInt (c_int nr);
            led_g := PyInt (c_int ng); led_b := PyInt (c_int nb) |}.
Proof.
  intros Hr Hg Hb. unfold CorsairLedColor_new, to_c_int.
  rewrite Hr, Hg, Hb. reflexivity.
Qed.



Lemma led_colors_for_ints (ids : list Z) (r g b : pyval) (nr ng nb : Z) :
  int_value r = Some nr -> int_value g = Some ng -> int_value b = Some nb ->
  led_colors_for ids r g b =
  Return (map (fun i => {| ledId := i; led_r := PyInt (c_int nr);
                           led_g := PyInt (c_int ng);
                           led_b := PyInt (c_int nb) |}) ids).
Proof.
  intros Hr Hg Hb. induction ids as [|i rest IH]; simpl; [reflexivity|].
  rewrite (CorsairLedColor_new_ints i r g b nr ng nb Hr Hg Hb), IH.
  reflexivity.
Qed.

Section Lighting.

Variable keys : list (string * Z).
Variable set_led_colors_reply : list CorsairLedColor -> bool.

(** C3: when one of r, g, b is not an [int] instance, or is 0 or 255,
    [set_full_led_color] raises [ValueError] (the specification's
    ValidationError) and the adapter, the library's list of submitted
    batches included, is left as it was. *)
Theorem set_full_led_color_rejects (r g b : pyval) (st : Corsair) :
  (exists v, In v [r; g; b] /\
             (isinstance_int v = false \/
              int_value v = Some 0%Z \/ int_value v = Some 255%Z)) ->
  exists msg,
    set_full_led_color keys set_led_colors_reply r g b st =
    (Raise (ValueError msg), st).
Proof.
  intros [v [Hin Hbad]]. unfold set_full_led_color.
  destruct (negb (isinstance_int r) || negb (isinstance_int g)
            || negb (isinstance_int b)) eqn:Etype.
  - eexists; reflexivity.
  - destruct (negb (in_open_range r) || negb (in_open_range g)
              || negb (in_open_range b)) eqn:Erange.
    + eexists; reflexivity.
    + exfalso.
      apply orb_false_iff in Etype. destruct Etype as [Etype Eb].
      apply orb_false_iff in Etype. destruct Etype as [Er Eg].
      apply orb_false_iff in Erange. destruct Erange as [Erange Rb].
      apply orb_false_iff in Erange. destruct Erange as [Rr Rg].
      apply negb_false_iff in Er, Eg, Eb, Rr, Rg, Rb.
      destruct Hin as [E | [E | [E | []]]]; subst v;
        [ exact (channel_accepted r Er Rr Hbad)
        | exact (channel_accepted g Eg Rg Hbad)
        | exact (channel_accepted b Eb Rb Hbad) ].
Qed.

(** C4: for integers r, g, b in 1..254, [set_full_led_color] submits one
    batch, made of one color entry per entry of the key table (in the
    table's order, with that entry's LED identifier), each carrying
    (r, g, b), and returns the library's answer. *)
Theorem set_full_led_color_submits (r g b : Z) (st : Corsair) :
  (1 <= r <= 254)%Z -> (1 <= g <= 254)%Z -> (1 <= b <= 254)%Z ->
  let batch :=
    map (fun entry : string * Z =>
           {| ledId := snd entry; led_r := PyInt r;
              led_g := PyInt g; led_b := PyInt b |}) keys in
  set_full_led_color keys set_led_colors_reply (PyInt r) (PyInt g) (PyInt b) st =
    (Return (PyBool (set_led_colors_reply batch)),
     with_library st (submit batch (library st))) /\
  List.length batch = List.length keys /\
  submitted (library (snd (set_full_led_color keys set_led_colors_reply
                             (PyInt r) (PyInt g) (PyInt b) st))) =
    submitted (library st) ++ [batch].
Proof.
  intros Hr Hg Hb batch.
  assert (E : set_full_led_color keys set_led_colors_reply
                (PyInt r) (PyInt g) (PyInt b) st =
              (Return (PyBool (set_led_colors_reply batch)),
               with_library st (submit batch (library st)))).
  { unfold set_full_led_color.
    change (negb (isinstance_int (PyInt r)) || negb (isinstance_int (PyInt g))
            || negb (isinstance_int (PyInt b))) with false.
    rewrite (in_open_range_int r Hr), (in_open_range_int g Hg),
      (in_open_range_int b Hb). cbv beta iota delta [negb orb].
    rewrite (led_colors_for_ints (keys_values keys) (PyInt r) (PyInt g)
               (PyInt b) r g b eq_refl eq_refl eq_refl).
    rewrite (c_int_small r), (c_int_small g), (c_int_small b) by lia.
    unfold on_library, set_led_colors, keys_values, submit, batch.
    rewrite map_map. reflexivity. }
  split; [exact E|]. split.
  - unfold batch. apply length_map.
  - rewrite E. reflexivity.
Qed.




(** Entries whose LED identifier is 0 add nothing to the list the loop
    builds. *)
Lemma set_ind_led_color_loop_skips (items : list (pyval * pyval)) :
  Forall (fun entry =>
            keys_get keys (fst entry) = Some 0%Z /\
            exists r g b, snd entry = PyTuple [r; g; b]) items ->
  forall parameter,
    set_ind_led_color_loop keys items parameter = Return parameter.
Proof.
  induction 1 as [|[k v] rest [Hk [r [g [b Hv]]]] _ IH]; intros parameter.
  - reflexivity.
  - simpl in Hk, Hv. simpl. rewrite Hk, Hv. simpl. apply IH.
Qed.

(** C6: when every entry of the mapping is a known key with a 3-tuple
    value and an LED identifier that is falsy (0), [set_ind_led_color]
    submits the empty batch and returns what the library answered. *)
Theorem set_ind_led_color_all_falsy (items : list (pyval * pyval))
    (st : Corsair) :
  Forall (fun entry =>
            keys_get keys (fst entry) = Some 0%Z /\
            exists r g b, snd entry = PyTuple [r; g; b]) items ->
  set_ind_led_color keys set_led_colors_reply (PyDict items) st =
  (Return (PyBool (set_led_colors_reply [])),
   with_library st (submit [] (library st))).
Proof.
  intros H. unfold set_ind_led_color.
  rewrite (set_ind_led_color_loop_skips items H []). reflexivity.
Qed.

(** C10: an argument that is not a [dict] makes [set_ind_led_color] raise
    [ValueError] (the specification's ValidationError) before anything is
    submitted: the adapter and its library are left as they were. *)
Theorem set_ind_led_color_not_dict (leds : pyval) (st : Corsair) :
  isinstance_dict leds = false ->
  set_ind_led_color keys set_led_colors_reply leds st =
  (Raise (ValueError "Parameter leds is not a dictionary"), st).
Proof.
  intros H. destruct leds; try reflexivity. discriminate H.
Qed.

End Lighting.

(** ** The key callback *)

(** C7: an argument that is not callable makes [set_key_callback] raise
    [ValueError] (the specification's ValidationError); the callback and
    the listener registered before, like the rest of the adapter, are left
    as they were. *)
Theorem set_key_callback_not_callable
    (Listener_refuses : pyval -> option exn) (callback : pyval)
    (st : Corsair) :
  callable callback = false ->
  set_key_callback Listener_refuses callback st =
    (Raise (ValueError "Parameter callback passed not callable"), st) /\
  _callback (snd (set_key_callback Listener_refuses callback st)) =
    _callback st /\
  _listener (snd (set_key_callback Listener_refuses callback st)) =
    _listener st.
Proof.
  intros H. unfold set_key_callback. rewrite H. simpl.
  repeat split; reflexivity.
Qed.

Section KeyCallback.

Variable keys : list (string * Z).
Variable default_device_id : nat.
Variable set_led_colors_reply : list CorsairLedColor -> bool.
Variable is_alive_reply : nat -> bool.
Variable Listener_refuses : pyval -> option exn.

(** When the busy loop ends, the query it ended on answered false and
    every query before it answered true. *)
Lemma busy_wait_returns (fuel : nat) :
  forall l l',
    started l = true ->
    busy_wait is_alive_reply fuel l = Some l' ->
    exists n,
      n < fuel /\
      polls l' = polls l + S n /\
      is_alive_reply (polls l + n) = false /\
      (forall k, k < n -> is_alive_reply (polls l + k) = true) /\
      on_press l' = on_press l /\ started l' = true /\
      stopping l' = stopping l.
Proof.
  induction fuel as [|fuel IH]; intros l l' Hs H; [discriminate H|].
  simpl in H. unfold Listener_is_alive in H. rewrite Hs in H.
  destruct (is_alive_reply (polls l)) eqn:Ea.
  - apply IH in H; [|reflexivity].
    destruct H as [n [Hn [Hp [Hf [Ht [Ho [Hst Hsp]]]]]]]. simpl in *.
    exists (S n).
    split; [lia|]. split; [lia|].
    split; [replace (polls l + S n) with (S (polls l + n)) by lia; exact Hf|].
    split; [|auto].
    intros k Hk. destruct k as [|k].
    + rewrite Nat.add_0_r. exact Ea.
    + replace (polls l + S k) with (S (polls l + k)) by lia.
      apply Ht. lia.
  - inversion H; subst l'; simpl. exists 0.
    split; [lia|]. split; [lia|].
    split; [rewrite Nat.add_0_r; exact Ea|].
    split; [intros k Hk; lia|auto].
Qed.

(** The busy loop ends once some query answers false. *)
Lemma busy_wait_terminates (n : nat) :
  forall l,
    started l = true ->
    is_alive_reply (polls l + n) = false ->
    exists l', busy_wait is_alive_reply (S n) l = Some l'.
Proof.
  induction n as [|n IH]; intros l Hs Hf.
  - simpl. unfold Listener_is_alive. rewrite Hs.
    rewrite Nat.add_0_r in Hf. rewrite Hf. eexists; reflexivity.
  - change (busy_wait is_alive_reply (S (S n)) l)
      with (let (alive, l1) := Listener_is_alive is_alive_reply l in
            if alive then busy_wait is_alive_reply (S n) l1 else Some l1).
    unfold Listener_is_alive. rewrite Hs.
    destruct (is_alive_reply (polls l)).
    + apply IH; simpl; [reflexivity|].
      replace (S (polls l + n)) with (polls l + S n) by lia. exact Hf.
    + eexists; reflexivity.
Qed.

(** A listener that stays alive keeps the busy loop going for any fuel. *)
Lemma busy_wait_hangs (fuel : nat) :
  forall l,
    started l = true ->
    (forall k, is_alive_reply (polls l + k) = true) ->
    busy_wait is_alive_reply fuel l = None.
Proof.
  induction fuel as [|fuel IH]; intros l Hs Ha; [reflexivity|].
  simpl. unfold Listener_is_alive. rewrite Hs.
  pose proof (Ha 0) as H0. rewrite Nat.add_0_r in H0. rewrite H0.
  apply IH; simpl; [reflexivity|].
  intros k. replace (S (polls l + k)) with (polls l + S k) by lia. apply Ha.
Qed.

Lemma enable_key_callback_disable (fuel : nat) (enable : pyval)
    (st : Corsair) (l : Listener) :
  running st l -> truthy enable = false ->
  enable_key_callback is_alive_reply fuel enable st =
  match busy_wait is_alive_reply fuel (Listener_stop l) with
  | None => None
  | Some l' => Some (Return PyNone, with_listener st l')
  end.
Proof.
  intros [Ht [Hc [Hl _]]] He. unfold enable_key_callback.
  rewrite Ht, Hc, Hl, He. reflexivity.
Qed.

(** C8: in the running state, [enable_key_callback] with a false argument
    signals the listener to stop and returns only after a liveness query
    has answered false, every query before that one having answered true;
    it does return once some query answers false, and it never returns
    while the listener keeps answering true. *)
Theorem enable_key_callback_false_waits (enable : pyval) (st : Corsair)
    (l : Listener) :
  running st l -> truthy enable = false ->
  (forall fuel out st',
      enable_key_callback is_alive_reply fuel enable st = Some (out, st') ->
      out = Return PyNone /\
      exists l' n,
        _listener st' = Some l' /\ stopping l' = true /\
        polls l' = polls l + S n /\
        is_alive_reply (polls l + n) = false /\
        (forall k, k < n -> is_alive_reply (polls l + k) = true)) /\
  (forall n,
      is_alive_reply (polls l + n) = false ->
      exists st',
        enable_key_callback is_alive_reply (S n) enable st =
        Some (Return PyNone, st')) /\
  ((forall k, is_alive_reply (polls l + k) = true) ->
   forall fuel, enable_key_callback is_alive_reply fuel enable st = None).
Proof.
  intros Hrun He.
  assert (Hs : started (Listener_stop l) = true) by (apply Hrun).
  split; [|split].
  - intros fuel out st' H.
    rewrite (enable_key_callback_disable fuel enable st l Hrun He) in H.
    destruct (busy_wait is_alive_reply fuel (Listener_stop l)) as [l'|] eqn:Eb;
      [|discriminate].
    inversion H; subst out st'. split; [reflexivity|].
    destruct (busy_wait_returns fuel _ _ Hs Eb)
      as [n [_ [Hp [Hf [Ht [_ [_ Hsp]]]]]]].
    exists l', n. simpl in *. repeat split; assumption.
  - intros n Hf.
    rewrite (enable_key_callback_disable (S n) enable st l Hrun He).
    destruct (busy_wait_terminates n (Listener_stop l) Hs Hf) as [l' E].
    rewrite E. eexists; reflexivity.
  - intros Ha fuel.
    rewrite (enable_key_callback_disable fuel enable st l Hrun He).
    rewrite (busy_wait_hangs fuel (Listener_stop l) Hs Ha). reflexivity.
Qed.

(** A call that registers no callback leaves [_callback] as it was. *)
Lemma run_call_keeps_callback (fuel : nat) (c : call) (st st' : Corsair) :
  registers c = false ->
  run_call keys default_device_id set_led_colors_reply is_alive_reply
    Listener_refuses fuel c st = Some st' ->
  _callback st' = _callback st.
Proof.
  intros Hreg H. destruct c; simpl in H.
  - inversion H. unfold get_layout.
    destruct (get_layout_loop _ _ _) as [[?|]|?]; reflexivity.
  - inversion H. unfold get_device_available.
    destruct (get_device_info _ _); reflexivity.
  - inversion H. reflexivity.
  - inversion H. unfold set_led_control_enabled.
    destruct (negb (isinstance_bool enable)); [reflexivity|].
    destruct (truthy enable); reflexivity.
  - inversion H. reflexivity.
  - inversion H. unfold set_full_led_color.
    destruct (_ || _); [reflexivity|].
    destruct (_ || _); [reflexivity|].
    destruct (led_colors_for _ _ _ _); reflexivity.
  - inversion H. unfold set_ind_led_color.
    destruct leds; try reflexivity.
    destruct (set_ind_led_color_loop _ _ _); reflexivity.
  - inversion H. simpl in Hreg. unfold set_key_callback.
    rewrite Hreg. reflexivity.
  - unfold enable_key_callback in H.
    destruct (negb (truthy (_callback st)) || negb (callable (_callback st))).
    + inversion H. reflexivity.
    + destruct (_listener st) as [l|]; [|inversion H; reflexivity].
      destruct (truthy enable).
      * destruct (Listener_start l) as [[?|?] ?]; inversion H; reflexivity.
      * destruct (busy_wait _ _ _); inversion H; reflexivity.
Qed.

Lemma run_calls_keep_callback (fuel : nat) (cs : list call) :
  forall st st',
    forallb (fun c => negb (registers c)) cs = true ->
    run_calls keys default_device_id set_led_colors_reply is_alive_reply
      Listener_refuses fuel cs st = Some st' ->
    _callback st' = _callback st.
Proof.
  induction cs as [|c rest IH]; intros st st' Hcs H; simpl in H.
  - inversion H. reflexivity.
  - simpl in Hcs. apply andb_true_iff in Hcs. destruct Hcs as [Hc Hrest].
    apply negb_true_iff in Hc.
    destruct (run_call _ _ _ _ _ fuel c st) as [st1|] eqn:E; [|discriminate].
    rewrite (IH st1 st' Hrest H).
    exact (run_call_keeps_callback fuel c st st1 Hc E).
Qed.

(** Without a callback, [enable_key_callback] raises whatever its
    argument. *)
Lemma enable_key_callback_no_callback (fuel : nat) (enable : pyval)
    (st : Corsair) :
  _callback st = PyNone ->
  enable_key_callback is_alive_reply fuel enable st =
  Some (Raise (ValueError "Callback not set. Please use set_key_callback"), st).
Proof. intros H. unfold enable_key_callback. rewrite H. reflexivity. Qed.

(** C9: in any state the adapter reaches from its construction through
    calls none of which registered a callback with [set_key_callback],
    [enable_key_callback(True)] raises [ValueError] (the specification's
    ValidationError), "Callback not set", and changes nothing. *)
Theorem enable_key_callback_unregistered (lib : CUESDK) (cs : list call)
    (fuel : nat) (st : Corsair) :
  forallb (fun c => negb (registers c)) cs = true ->
  run_calls keys default_device_id set_led_colors_reply is_alive_reply
    Listener_refuses fuel cs (init lib) = Some st ->
  forall fuel',
    enable_key_callback is_alive_reply fuel' (PyBool true) st =
    Some (Raise (ValueError "Callback not set. Please use set_key_callback"),
          st).
Proof.
  intros Hcs Hrun fuel'. apply enable_key_callback_no_callback.
  rewrite (run_calls_keep_callback fuel cs (init lib) st Hcs Hrun).
  reflexivity.
Qed.

End KeyCallback.

(** ** The theorems at sample inputs *)

Lemma set_full_led_color_rejects_witness :
  exists msg,
    set_full_led_color sample_keys always_accepts
      (PyInt 12) (PyFloat (1 # 2)) (PyInt 255) (init (sdk_with [a_keyboard])) =
    (Raise (ValueError msg), init (sdk_with [a_keyboard])).
Proof.
  apply (set_full_led_color_rejects sample_keys always_accepts).
  exists (PyInt 255). split.
  - simpl. right. right. left. reflexivity.
  - right. right. reflexivity.
Defined.

Lemma set_full_led_color_submits_witness :
  submitted (library (snd (set_full_led_color sample_keys always_accepts
                             (PyInt 1) (PyInt 128) (PyInt 254)
                             (init (sdk_with [a_keyboard]))))) =
  [[ {| ledId := 1; led_r := PyInt 1; led_g := PyInt 128; led_b := PyInt 254 |};
     {| ledId := 2; led_r := PyInt 1; led_g := PyInt 128; led_b := PyInt 254 |};
     {| ledId := 0; led_r := PyInt 1; led_g := PyInt 128; led_b := PyInt 254 |};
     {| ledId := 38; led_r := PyInt 1; led_g := PyInt 128; led_b := PyInt 254 |};
     {| ledId := 0; led_r := PyInt 1; led_g := PyInt 128; led_b := PyInt 254 |} ]].
Proof.
  apply (set_full_led_color_submits sample_keys always_accepts 1 128 254
           (init (sdk_with [a_keyboard]))); lia.
Defined.



Lemma set_ind_led_color_all_falsy_witness :
  set_ind_led_color sample_keys always_accepts
    (PyDict [(PyStr "Fn", PyTuple [PyInt 1; PyInt 2; PyInt 3]);
             (PyStr "WinLock", PyTuple [PyInt 4; PyInt 5; PyInt 6])])
    (init (sdk_with [a_keyboard])) =
  (Return (PyBool true),
   with_library (init (sdk_with [a_keyboard]))
     (submit [] (sdk_with [a_keyboard]))).
Proof.
  apply (set_ind_led_color_all_falsy sample_keys always_accepts).
  repeat constructor; simpl; eexists; eexists; eexists; reflexivity.
Defined.

Lemma set_ind_led_color_not_dict_witness :
  set_ind_led_color sample_keys always_accepts
    (PyList [PyStr "A"]) (init (sdk_with [a_keyboard])) =
  (Raise (ValueError "Parameter leds is not a dictionary"),
   init (sdk_with [a_keyboard])).
Proof.
  apply (set_ind_led_color_not_dict sample_keys always_accepts).
  reflexivity.
Defined.

Lemma set_key_callback_not_callable_witness :
  set_key_callback refuses_three_args (PyStr "on_key") listening =
    (Raise (ValueError "Parameter callback passed not callable"), listening) /\
  _callback (snd (set_key_callback refuses_three_args (PyStr "on_key")
                    listening)) = on_key /\
  _listener (snd (set_key_callback refuses_three_args (PyStr "on_key")
                    listening)) =
    _listener listening.
Proof.
  apply (set_key_callback_not_callable refuses_three_args (PyStr "on_key")
           listening).
  reflexivity.
Defined.

Lemma enable_key_callback_false_waits_witness :
  (forall fuel out st',
      enable_key_callback ends_after_three fuel (PyBool false) listening =
        Some (out, st') ->
      out = Return PyNone /\
      exists l' n,
        _listener st' = Some l' /\ stopping l' = true /\
        polls l' = polls a_listener + S n /\
        ends_after_three (polls a_listener + n) = false /\
        (forall k, k < n -> ends_after_three (polls a_listener + k) = true)) /\
  exists st',
    enable_key_callback ends_after_three 4 (PyBool false) listening =
    Some (Return PyNone, st').
Proof.
  assert (Hrun : running listening a_listener).
  { repeat split; reflexivity. }
  destruct (enable_key_callback_false_waits ends_after_three (PyBool false)
              listening a_listener Hrun eq_refl) as [Hsafe [Hlive _]].
  split; [exact Hsafe|]. apply (Hlive 3). reflexivity.
Defined.

Lemma enable_key_callback_unregistered_witness :
  enable_key_callback ends_after_three 0 (PyBool true) after_sample_calls =
  Some (Raise (ValueError "Callback not set. Please use set_key_callback"),
        after_sample_calls).
Proof.
  apply (enable_key_callback_unregistered sample_keys 0 always_accepts
           ends_after_three refuses_three_args (sdk_with [a_keyboard])
           sample_calls 5 after_sample_calls); reflexivity.
Defined.

(** ** The key table and the items of a mapping *)


Lemma keys_find_NoDup (name : string) (led : Z) (table : list (string * Z)) :
  NoDup (map fst table) -> In (name, led) table ->
  keys_find name table = Some led.
Proof.
  induction table as [|[k i] rest IH]; simpl; intros Hnd Hin; [destruct Hin|].
  inversion Hnd as [|? ? Hnotin Hrest]; subst.
  destruct Hin as [E | Hin].
  - inversion E; subst. rewrite String.eqb_refl. reflexivity.
  - destruct (String.eqb_spec k name) as [E|_].
    + exfalso. apply Hnotin. subst k.
      change name with (fst (name, led)). apply in_map. exact Hin.
    + apply IH; assumption.
Qed.


Lemma item_error_none (keys : list (string * Z)) (key value : pyval) :
  item_error keys (key, value) = None ->
  exists led r g b,
    keys_get keys key = Some led /\ value = PyTuple [r; g; b] /\
    (led = 0%Z \/
     exists nr ng nb,
       led <> 0%Z /\ int_value r = Some nr /\ int_value g = Some ng /\
       int_value b = Some nb).
Proof.
  unfold item_error; simpl. destruct (keys_get keys key) as [led|];
    [|discriminate].
  destruct value as [| | | | | channels | | |]; try discriminate.
  destruct channels as [|c1 [|c2 [|c3 [|c4 more]]]]; try discriminate.
  intros H. exists led, c1, c2, c3. split; [reflexivity|].
  split; [reflexivity|].
  destruct (Z.eqb_spec led 0) as [E|E]; [left; exact E|]. right.
  destruct (isinstance_int c1) eqn:H1; [|discriminate H].
  destruct (isinstance_int c2) eqn:H2; [|discriminate H].
  destruct (isinstance_int c3) eqn:H3; [|discriminate H].
  destruct (isinstance_int_value c1 H1) as [n1 E1].
  destruct (isinstance_int_value c2 H2) as [n2 E2].
  destruct (isinstance_int_value c3 H3) as [n3 E3].
  exists n1, n2, n3. repeat split; assumption.
Qed.


Section Mappings.

Variable keys : list (string * Z).
Variable set_led_colors_reply : list CorsairLedColor -> bool.

(** On items that are all in order, the loop adds [led_entries]. *)
Lemma set_ind_led_color_loop_entries (items : list (pyval * pyval)) :
  Forall (fun item => item_error keys item = None) items ->
  forall parameter,
    set_ind_led_color_loop keys items parameter =
    Return (parameter ++ led_entries keys items).
Proof.
  induction 1 as [|[k v] rest Hok _ IH]; intros parameter.
  - simpl. rewrite app_nil_r. reflexivity.
  - destruct (item_error_none keys k v Hok)
      as [led [r [g [b [Hk [Hv Hled]]]]]].
    subst v. unfold led_entries. simpl. rewrite Hk.
    destruct Hled as [Hz | [nr [ng [nb [Hnz [Er [Eg Eb]]]]]]].
    + subst led. simpl. apply IH.
    + apply Z.eqb_neq in Hnz. rewrite Hnz.
      rewrite (CorsairLedColor_new_ints led r g b nr ng nb Er Eg Eb).
      rewrite Er, Eg, Eb. rewrite IH. simpl.
      rewrite <- app_assoc. reflexivity.
Qed.



End Mappings.


Lemma filter_has_led_all (table : list (string * Z)) :
  Forall (fun entry => snd entry <> 0%Z) table ->
  filter has_led table = table.
Proof.
  induction 1 as [|entry rest Hnz _ IH]; simpl; [reflexivity|].
  unfold has_led at 1. apply Z.eqb_neq in Hnz. rewrite Hnz. simpl.
  rewrite IH. reflexivity.
Qed.

Section LightingFurther.

Variable keys : list (string * Z).
Variable set_led_colors_reply : list CorsairLedColor -> bool.

(** Channels that pass both tests of [set_full_led_color] give one batch
    over the whole table. *)
Lemma set_full_led_color_accepted (r g b : pyval) (nr ng nb : Z)
    (st : Corsair) :
  int_value r = Some nr -> int_value g = Some ng -> int_value b = Some nb ->
  in_open_range r = true -> in_open_range g = true ->
  in_open_range b = true ->
  set_full_led_color keys set_led_colors_reply r g b st =
  (Return (PyBool (set_led_colors_reply
                     (map (fun entry =>
                             led_color (snd entry) (PyInt (c_int nr))
                               (PyInt (c_int ng)) (PyInt (c_int nb))) keys))),
   with_library st
     (submit (map (fun entry =>
                     led_color (snd entry) (PyInt (c_int nr))
                       (PyInt (c_int ng)) (PyInt (c_int nb))) keys)
        (library st))).
Proof.
  intros Er Eg Eb Rr Rg Rb. unfold set_full_led_color.
  rewrite (int_value_isinstance r nr Er), (int_value_isinstance g ng Eg),
    (int_value_isinstance b nb Eb), Rr, Rg, Rb.
  cbv beta iota delta [negb orb].
  rewrite (led_colors_for_ints (keys_values keys) r g b nr ng nb Er Eg Eb).
  unfold on_library, set_led_colors, keys_values, submit, led_color.
  rewrite map_map. reflexivity.
Qed.

(** X5: when every item of the mapping has a key of the table and a
    3-tuple value, with [int] instances for channels where the key has a
    nonzero LED identifier, [set_ind_led_color] returns the library's
    answer and submits one batch: an entry for each item whose key has a
    nonzero LED identifier, in the order of the mapping, carrying the C
    [int] values of the tuple's three channels (they are not range
    checked). *)
Theorem set_ind_led_color_well_formed (items : list (pyval * pyval))
    (st : Corsair) :
  Forall (fun item => item_error keys item = None) items ->
  set_ind_led_color keys set_led_colors_reply (PyDict items) st =
  (Return (PyBool (set_led_colors_reply (led_entries keys items))),
   with_library st (submit (led_entries keys items) (library st))).
Proof.
  intros H. unfold set_ind_led_color.
  rewrite (set_ind_led_color_loop_entries keys items H []). reflexivity.
Qed.




(** Over part of a table without repeated names, the mapping of every key
    to three [int] instances asks for the entries of the keys that have
    an LED. *)
Lemma led_entries_all_keys (r g b : pyval) (nr ng nb : Z)
    (part : list (string * Z)) :
  int_value r = Some nr -> int_value g = Some ng -> int_value b = Some nb ->
  NoDup (map fst keys) -> incl part keys ->
  led_entries keys (all_keys_mapping part r g b) =
  map (fun entry =>
         led_color (snd entry) (PyInt (c_int nr)) (PyInt (c_int ng))
           (PyInt (c_int nb)))
    (filter has_led part).
Proof.
  intros Er Eg Eb Hnd. induction part as [|[name led] rest IH]; intros Hincl.
  - reflexivity.
  - assert (Hk : keys_find name keys = Some led).
    { apply keys_find_NoDup; [exact Hnd|]. apply Hincl. left; reflexivity. }
    assert (Hrest : incl rest keys).
    { intros e He. apply Hincl. right; exact He. }
    unfold led_entries, all_keys_mapping in *. simpl. rewrite Hk.
    unfold has_led at 1. simpl.
    destruct (led =? 0)%Z; simpl; [|rewrite Er, Eg, Eb; simpl];
      rewrite (IH Hrest); reflexivity.
Qed.

Lemma keys_find_some (name : string) (table : list (string * Z)) :
  In name (map fst table) -> exists led, keys_find name table = Some led.
Proof.
  induction table as [|[k i] rest IH]; simpl; intros Hin; [destruct Hin|].
  destruct (String.eqb_spec k name) as [E|E]; [eexists; reflexivity|].
  destruct Hin as [Hin|Hin]; [exfalso; exact (E Hin) | exact (IH Hin)].
Qed.

Lemma all_keys_mapping_in_order (r g b : pyval) (part : list (string * Z)) :
  isinstance_int r = true -> isinstance_int g = true ->
  isinstance_int b = true ->
  incl part keys ->
  Forall (fun item => item_error keys item = None)
    (all_keys_mapping part r g b).
Proof.
  intros Ir Ig Ib.
  induction part as [|[name led] rest IH]; intros Hincl; simpl.
  - constructor.
  - constructor.
    + unfold item_error. simpl.
      assert (Hin : In name (map fst keys)).
      { change name with (fst (name, led)). apply in_map. apply Hincl.
        left; reflexivity. }
      destruct (keys_find_some name keys Hin) as [led' E]. rewrite E.
      rewrite Ir, Ig, Ib. simpl. destruct (led' =? 0)%Z; reflexivity.
    + apply IH. intros e He. apply Hincl. right; exact He.
Qed.

Lemma set_ind_led_color_all_keys (r g b : Z) (st : Corsair) :
  NoDup (map fst keys) ->
  set_ind_led_color keys set_led_colors_reply
    (PyDict (all_keys_mapping keys (PyInt r) (PyInt g) (PyInt b))) st =
  (Return (PyBool (set_led_colors_reply
             (map (fun entry =>
                     led_color (snd entry) (PyInt (c_int r))
                       (PyInt (c_int g)) (PyInt (c_int b)))
                (filter has_led keys)))),
   with_library st
     (submit (map (fun entry =>
                     led_color (snd entry) (PyInt (c_int r))
                       (PyInt (c_int g)) (PyInt (c_int b)))
                (filter has_led keys))
        (library st))).
Proof.
  intros Hnd. unfold set_ind_led_color.
  rewrite (set_ind_led_color_loop_entries keys _
             (all_keys_mapping_in_order (PyInt r) (PyInt g) (PyInt b) keys
                eq_refl eq_refl eq_refl (incl_refl keys)) []).
  rewrite (led_entries_all_keys (PyInt r) (PyInt g) (PyInt b) r g b keys
             eq_refl eq_refl eq_refl Hnd (incl_refl keys)).
  reflexivity.
Qed.

(** X9: given every key of the table (names not repeated) with the same
    three integers, whatever they are, 0 and 255 included,
    [set_ind_led_color] submits one batch with an entry for each key
    whose LED identifier is not 0, carrying the C [int] values of the
    three integers. *)
Theorem set_ind_led_color_over_all_keys (r g b : Z) (st : Corsair) :
  NoDup (map fst keys) ->
  set_ind_led_color keys set_led_colors_reply
    (PyDict (all_keys_mapping keys (PyInt r) (PyInt g) (PyInt b))) st =
  (Return (PyBool (set_led_colors_reply
             (map (fun entry =>
                     led_color (snd entry) (PyInt (c_int r))
                       (PyInt (c_int g)) (PyInt (c_int b)))
                (filter has_led keys)))),
   with_library st
     (submit (map (fun entry =>
                     led_color (snd entry) (PyInt (c_int r))
                       (PyInt (c_int g)) (PyInt (c_int b)))
                (filter has_led keys))
        (library st))).
Proof. apply set_ind_led_color_all_keys. Qed.

(** X10: when no key of the table (names not repeated) has LED identifier
    0 and r, g, b are integers from 1 to 254, [set_full_led_color] does
    what [set_ind_led_color] does with every key mapped to (r, g, b):
    the same answer, the same batch, the same state. *)
Theorem set_full_led_color_as_mapping (r g b : Z) (st : Corsair) :
  NoDup (map fst keys) ->
  Forall (fun entry => snd entry <> 0%Z) keys ->
  (1 <= r <= 254)%Z -> (1 <= g <= 254)%Z -> (1 <= b <= 254)%Z ->
  set_full_led_color keys set_led_colors_reply
    (PyInt r) (PyInt g) (PyInt b) st =
  set_ind_led_color keys set_led_colors_reply
    (PyDict (all_keys_mapping keys (PyInt r) (PyInt g) (PyInt b))) st.
Proof.
  intros Hnd Hnz Hr Hg Hb.
  rewrite (set_ind_led_color_all_keys r g b st Hnd).
  rewrite (filter_has_led_all keys Hnz).
  apply (set_full_led_color_accepted (PyInt r) (PyInt g) (PyInt b) r g b st);
    try reflexivity; apply in_open_range_int; assumption.
Qed.

End LightingFurther.

(** ** Further properties of the adapter *)

(** X2: [set_led_control_enabled] refuses an argument that is not a
    [bool] with [ValueError], before the library is asked anything. *)
Theorem set_led_control_enabled_not_bool (enable : pyval) (st : Corsair) :
  isinstance_bool enable = false ->
  set_led_control_enabled enable st =
  (Raise (ValueError "Parameter enable is not bool type"), st).
Proof.
  intros H. unfold set_led_control_enabled. rewrite H. reflexivity.
Qed.

Lemma with_listener_same (st : Corsair) (l : Listener) :
  _listener st = Some l -> with_listener st l = st.
Proof. destruct st; simpl; intros H; subst; reflexivity. Qed.

Lemma library_same (st : Corsair) (n : nat) :
  devices (library st) = devices (library st) /\
  exists more,
    submitted (library st) = submitted (library st) ++ more /\
    List.length more <= n.
Proof.
  split; [reflexivity|]. exists []. rewrite app_nil_r. simpl.
  split; [reflexivity | lia].
Qed.

Section CallsFurther.

Variable keys : list (string * Z).
Variable default_device_id : nat.
Variable set_led_colors_reply : list CorsairLedColor -> bool.
Variable is_alive_reply : nat -> bool.
Variable Listener_refuses : pyval -> option exn.

(** X3: when the hook refuses a callable, [set_key_callback] raises the
    hook's exception with [_callback] already replaced and the listener
    held before still in place.  On an adapter without a listener,
    [enable_key_callback] then raises "Callback set but listener not
    found"; on an adapter whose listener was not started,
    [enable_key_callback] with a true argument starts that listener,
    which is bound to the callback registered before. *)
Theorem set_key_callback_refused (callback : pyval) (e : exn)
    (st : Corsair) :
  callable callback = true -> truthy callback = true ->
  Listener_refuses callback = Some e ->
  fst (set_key_callback Listener_refuses callback st) = Raise e /\
  _callback (snd (set_key_callback Listener_refuses callback st)) =
    callback /\
  _listener (snd (set_key_callback Listener_refuses callback st)) =
    _listener st /\
  (_listener st = None ->
   forall fuel enable,
     enable_key_callback is_alive_reply fuel enable
       (snd (set_key_callback Listener_refuses callback st)) =
     Some (Raise (ValueError "Callback set but listener not found"),
           snd (set_key_callback Listener_refuses callback st))) /\
  (forall l,
      _listener st = Some l -> started l = false ->
      forall fuel enable,
        truthy enable = true ->
        exists l',
          enable_key_callback is_alive_reply fuel enable
            (snd (set_key_callback Listener_refuses callback st)) =
          Some (Return PyNone,
                with_listener
                  (snd (set_key_callback Listener_refuses callback st)) l') /\
          started l' = true /\ on_press l' = on_press l).
Proof.
  intros Hc Ht Hr. unfold set_key_callback. rewrite Hc, Hr. simpl.
  split; [reflexivity|]. split; [reflexivity|]. split; [reflexivity|].
  split.
  - intros Hl fuel enable. unfold enable_key_callback. simpl.
    rewrite Ht, Hc, Hl. reflexivity.
  - intros l Hl Hs fuel enable He. unfold enable_key_callback. simpl.
    rewrite Ht, Hc, Hl, He. unfold Listener_start. rewrite Hs.
    eexists. split; [reflexivity|]. split; reflexivity.
Qed.

(** X4: after [set_key_callback] has stored a callback that the hook
    takes, [enable_key_callback(True)] starts the listener and returns:
    the adapter is then in the running state. *)
Theorem enable_key_callback_starts (fuel : nat) (callback : pyval)
    (st : Corsair) :
  callable callback = true -> truthy callback = true ->
  Listener_refuses callback = None ->
  exists l,
    enable_key_callback is_alive_reply fuel (PyBool true)
      (snd (set_key_callback Listener_refuses callback st)) =
    Some (Return PyNone,
          with_listener
            (snd (set_key_callback Listener_refuses callback st)) l) /\
    running
      (with_listener
         (snd (set_key_callback Listener_refuses callback st)) l) l.
Proof.
  intros Hc Ht Hr.
  unfold set_key_callback. rewrite Hc, Hr. simpl snd.
  unfold enable_key_callback. simpl. rewrite Ht, Hc. simpl.
  eexists. split; [reflexivity|].
  unfold running; simpl. repeat split; assumption.
Qed.

Lemma busy_wait_on_press (fuel : nat) :
  forall l l',
    busy_wait is_alive_reply fuel l = Some l' -> on_press l' = on_press l.
Proof.
  induction fuel as [|fuel IH]; intros l l' H; [discriminate H|].
  simpl in H. unfold Listener_is_alive in H.
  destruct (started l).
  - destruct (is_alive_reply (polls l)).
    + apply IH in H. exact H.
    + inversion H; reflexivity.
  - inversion H; reflexivity.
Qed.

(** What one call does to the library: the devices stay, and at most one
    batch is added, by a lighting call only. *)
Lemma run_call_library (fuel : nat) (c : call) (st st' : Corsair) :
  run_call keys default_device_id set_led_colors_reply is_alive_reply
    Listener_refuses fuel c st = Some st' ->
  devices (library st') = devices (library st) /\
  exists more,
    submitted (library st') = submitted (library st) ++ more /\
    List.length more <= (if is_lighting_call c then 1 else 0).
Proof.
  intros H. destruct c; simpl in H; simpl is_lighting_call; cbv iota.
  - rewrite get_layout_closed_form in H.
    destruct (existsb _ _); [destruct (nth_error _ _)|];
      inversion H; subst; simpl; apply library_same.
  - unfold get_device_available in H.
    destruct (get_device_info _ _); inversion H; subst; simpl;
      apply library_same.
  - inversion H; subst; simpl; apply library_same.
  - unfold set_led_control_enabled in H.
    destruct (negb (isinstance_bool enable));
      [inversion H; subst; simpl; apply library_same|].
    destruct (truthy enable); inversion H; simpl;
      (split; [reflexivity|]; exists []; rewrite app_nil_r; auto).
  - inversion H; subst; simpl; apply library_same.
  - unfold set_full_led_color in H.
    destruct (_ || _); [inversion H; subst; simpl; apply library_same|].
    destruct (_ || _); [inversion H; subst; simpl; apply library_same|].
    destruct (led_colors_for _ _ _ _);
      [|inversion H; subst; simpl; apply library_same].
    inversion H; simpl. split; [reflexivity|].
    eexists. split; [reflexivity | simpl; lia].
  - unfold set_ind_led_color in H.
    destruct leds; try (inversion H; subst; simpl; apply library_same).
    destruct (set_ind_led_color_loop _ _ _);
      [|inversion H; subst; simpl; apply library_same].
    inversion H; simpl. split; [reflexivity|].
    eexists. split; [reflexivity | simpl; lia].
  - unfold set_key_callback in H.
    destruct (negb (callable callback));
      [inversion H; subst; simpl; apply library_same|].
    destruct (Listener_refuses callback);
      inversion H; subst; simpl; apply library_same.
  - unfold enable_key_callback in H.
    destruct (_ || _); [inversion H; subst; simpl; apply library_same|].
    destruct (_listener st) as [l|];
      [|inversion H; subst; simpl; apply library_same].
    destruct (truthy enable).
    + destruct (Listener_start l) as [[?|?] ?];
        inversion H; subst; simpl; apply library_same.
    + destruct (busy_wait _ _ _);
        inversion H; subst; simpl; apply library_same.
Qed.

(** X12: over any sequence of calls that all come back, the adapter never
    changes the device list of the library, never removes or reorders a
    submitted batch, and adds at most one batch per lighting call
    ([set_full_led_color], [set_ind_led_color]). *)
Theorem run_calls_library (fuel : nat) (cs : list call) :
  forall st st',
    run_calls keys default_device_id set_led_colors_reply is_alive_reply
      Listener_refuses fuel cs st = Some st' ->
    devices (library st') = devices (library st) /\
    exists more,
      submitted (library st') = submitted (library st) ++ more /\
      List.length more <= List.length (filter is_lighting_call cs).
Proof.
  induction cs as [|c rest IH]; intros st st' H; simpl in H.
  - inversion H. split; [reflexivity|]. exists []. rewrite app_nil_r. auto.
  - destruct (run_call _ _ _ _ _ fuel c st) as [st1|] eqn:E; [|discriminate].
    destruct (run_call_library fuel c st st1 E) as [Hd [m1 [Hs1 Hl1]]].
    destruct (IH st1 st' H) as [Hd' [m2 [Hs2 Hl2]]].
    split; [congruence|]. exists (m1 ++ m2). split.
    + rewrite Hs2, Hs1, app_assoc. reflexivity.
    + rewrite length_app. simpl. destruct (is_lighting_call c); simpl; lia.
Qed.

(** A call whose callback, if any, the hook takes keeps the callback and
    the listener together. *)
Lemma run_call_callback_listener (fuel : nat) (c : call) (st st' : Corsair) :
  hook_takes Listener_refuses c = true ->
  callback_listener_ok st ->
  run_call keys default_device_id set_led_colors_reply is_alive_reply
    Listener_refuses fuel c st = Some st' ->
  callback_listener_ok st'.
Proof.
  intros Htakes Hok H. destruct c; simpl in H.
  - rewrite get_layout_closed_form in H.
    destruct (existsb _ _); [destruct (nth_error _ _)|];
      inversion H; subst; exact Hok.
  - unfold get_device_available in H.
    destruct (get_device_info _ _); inversion H; subst; exact Hok.
  - inversion H; subst; exact Hok.
  - unfold set_led_control_enabled in H.
    destruct (negb (isinstance_bool enable)); [inversion H; subst; exact Hok|].
    destruct (truthy enable); inversion H; subst; exact Hok.
  - inversion H; subst; exact Hok.
  - unfold set_full_led_color in H.
    destruct (_ || _); [inversion H; subst; exact Hok|].
    destruct (_ || _); [inversion H; subst; exact Hok|].
    destruct (led_colors_for _ _ _ _); inversion H; subst; exact Hok.
  - unfold set_ind_led_color in H.
    destruct leds; try (inversion H; subst; exact Hok).
    destruct (set_ind_led_color_loop _ _ _); inversion H; subst; exact Hok.
  - unfold set_key_callback in H. simpl in Htakes.
    destruct (callable callback) eqn:Ec; simpl in H, Htakes.
    + destruct (Listener_refuses callback); [discriminate Htakes|].
      inversion H; subst.
      unfold callback_listener_ok; simpl. split; [exact Ec | reflexivity].
    + inversion H; subst. exact Hok.
  - unfold enable_key_callback in H.
    destruct (_ || _); [inversion H; subst; exact Hok|].
    unfold callback_listener_ok in Hok.
    destruct (_listener st) as [l|] eqn:El;
      [|inversion H; subst; unfold callback_listener_ok; rewrite El;
        exact Hok].
    destruct Hok as [Hc Hp].
    destruct (truthy enable).
    + unfold Listener_start in H.
      destruct (started l); inversion H; subst;
        unfold callback_listener_ok; simpl; split; assumption.
    + destruct (busy_wait is_alive_reply fuel (Listener_stop l)) as [l'|] eqn:Eb;
        inversion H; subst.
      unfold callback_listener_ok; simpl. split; [exact Hc|].
      rewrite (busy_wait_on_press fuel _ _ Eb). exact Hp.
Qed.

Lemma run_calls_callback_listener (fuel : nat) (cs : list call) :
  forall st st',
    forallb (hook_takes Listener_refuses) cs = true ->
    callback_listener_ok st ->
    run_calls keys default_device_id set_led_colors_reply is_alive_reply
      Listener_refuses fuel cs st = Some st' ->
    callback_listener_ok st'.
Proof.
  induction cs as [|c rest IH]; intros st st' Htakes Hok H; simpl in H.
  - inversion H; subst; exact Hok.
  - simpl in Htakes. apply andb_true_iff in Htakes.
    destruct Htakes as [Hc Hrest].
    destruct (run_call _ _ _ _ _ fuel c st) as [st1|] eqn:E; [|discriminate].
    apply (IH st1 st' Hrest); [|exact H].
    exact (run_call_callback_listener fuel c st st1 Hc Hok E).
Qed.

(** X13: in every state the adapter reaches from its construction through
    calls in which the hook took every callable given to
    [set_key_callback], the callback and the listener go together (none
    of either, or a callable and a listener bound to it), so
    [enable_key_callback] does not raise its second error, "Callback set
    but listener not found". *)
Theorem enable_key_callback_listener_found (lib : CUESDK) (cs : list call)
    (fuel : nat) (st : Corsair) :
  forallb (hook_takes Listener_refuses) cs = true ->
  run_calls keys default_device_id set_led_colors_reply is_alive_reply
    Listener_refuses fuel cs (init lib) = Some st ->
  callback_listener_ok st /\
  forall fuel' enable out st',
    enable_key_callback is_alive_reply fuel' enable st = Some (out, st') ->
    out <> Raise (ValueError "Callback set but listener not found").
Proof.
  intros Htakes Hrun.
  assert (Hok : callback_listener_ok st).
  { apply (run_calls_callback_listener fuel cs (init lib) st Htakes);
      [|exact Hrun].
    reflexivity. }
  split; [exact Hok|].
  intros fuel' enable out st' H. unfold enable_key_callback in H.
  unfold callback_listener_ok in Hok.
  destruct (_listener st) as [l|].
  - destruct (_ || _); [inversion H; discriminate|].
    destruct (truthy enable).
    + destruct (Listener_start l) as [[?|e] ?] eqn:Es; inversion H;
        [discriminate|].
      unfold Listener_start in Es. destruct (started l); inversion Es.
      discriminate.
    + destruct (busy_wait _ _ _); inversion H. discriminate.
  - rewrite Hok in H. simpl in H. inversion H. discriminate.
Qed.

(** X14: with a callback registered and a listener that was never
    started, [enable_key_callback] with a false argument returns at once:
    it signals the listener and the one liveness query it makes is
    answered without the hook's thread being consulted. *)
Theorem enable_key_callback_false_not_started (fuel : nat) (enable : pyval)
    (st : Corsair) (l : Listener) :
  truthy (_callback st) = true -> callable (_callback st) = true ->
  _listener st = Some l -> started l = false ->
  truthy enable = false ->
  enable_key_callback is_alive_reply (S fuel) enable st =
  Some (Return PyNone, with_listener st (Listener_stop l)).
Proof.
  intros Ht Hc Hl Hs He. unfold enable_key_callback.
  rewrite Ht, Hc, Hl, He. simpl. unfold Listener_is_alive. simpl.
  rewrite Hs. reflexivity.
Qed.

(** X15: once the listener has been started, [enable_key_callback] with a
    true argument asks the same thread to start again, and the hook's
    refusal comes out of the call with the adapter unchanged; this is
    also so after [enable_key_callback] with a false argument has come
    back, as the stopped listener is kept. *)
Theorem enable_key_callback_again (enable : pyval) (st : Corsair)
    (l : Listener) :
  running st l -> truthy enable = true ->
  (forall fuel,
      enable_key_callback is_alive_reply fuel enable st =
      Some (Raise (VendorError "threads can only be started once"), st)) /\
  (forall fuel off out st',
      truthy off = false ->
      enable_key_callback is_alive_reply fuel off st = Some (out, st') ->
      forall fuel',
        enable_key_callback is_alive_reply fuel' enable st' =
        Some (Raise (VendorError "threads can only be started once"), st')).
Proof.
  intros Hrun He.
  assert (Hagain : forall s k,
             running s k ->
             forall fuel,
               enable_key_callback is_alive_reply fuel enable s =
               Some (Raise (VendorError "threads can only be started once"),
                     s)).
  { intros s k [Ht [Hc [Hl Hs]]] fuel. unfold enable_key_callback.
    rewrite Ht, Hc, Hl, He. unfold Listener_start. rewrite Hs.
    rewrite (with_listener_same s k Hl). reflexivity. }
  split; [exact (Hagain st l Hrun)|].
  intros fuel off out st' Hoff H fuel'.
  rewrite (enable_key_callback_disable is_alive_reply fuel off st l Hrun Hoff)
    in H.
  destruct (busy_wait is_alive_reply fuel (Listener_stop l)) as [l'|] eqn:Eb;
    [|discriminate].
  inversion H; subst out st'.
  assert (Hs : started (Listener_stop l) = true) by (apply Hrun).
  destruct (busy_wait_returns is_alive_reply fuel _ _ Hs Eb)
    as [n [_ [_ [_ [_ [_ [Hst _]]]]]]].
  apply (Hagain (with_listener st l') l').
  destruct Hrun as [Ht [Hc _]].
  unfold running; simpl. repeat split; assumption.
Qed.

(** X16: [set_key_callback] assigns a callable whose truth value is
    false, whether or not the hook then takes it, and
    [enable_key_callback] afterwards reports that no callback was set,
    whatever its argument. *)
Theorem enable_key_callback_falsy_callable (fuel : nat)
    (callback enable : pyval) (st : Corsair) :
  callable callback = true -> truthy callback = false ->
  _callback (snd (set_key_callback Listener_refuses callback st)) =
    callback /\
  enable_key_callback is_alive_reply fuel enable
    (snd (set_key_callback Listener_refuses callback st)) =
  Some (Raise (ValueError "Callback not set. Please use set_key_callback"),
        snd (set_key_callback Listener_refuses callback st)).
Proof.
  intros Hc Ht. unfold set_key_callback. rewrite Hc. simpl.
  destruct (Listener_refuses callback); simpl;
    (split; [reflexivity|]);
    unfold enable_key_callback; simpl; rewrite Ht; reflexivity.
Qed.

End CallsFurther.

(** ** The further properties at sample inputs *)

Lemma sample_keys_NoDup : NoDup (map fst sample_keys).
Proof.
  repeat constructor; simpl; intros H;
    repeat (destruct H as [H|H]; [discriminate H|]); exact H.
Qed.

Lemma lit_keys_NoDup : NoDup (map fst lit_keys).
Proof.
  repeat constructor; simpl; intros H;
    repeat (destruct H as [H|H]; [discriminate H|]); exact H.
Qed.

Lemma set_led_control_enabled_not_bool_witness :
  set_led_control_enabled (PyInt 1) listening =
  (Raise (ValueError "Parameter enable is not bool type"), listening).
Proof.
  apply (set_led_control_enabled_not_bool (PyInt 1) listening). reflexivity.
Defined.

Lemma set_key_callback_refused_witness :
  fst (set_key_callback refuses_three_args three_args registered) =
    Raise (ValueError "three_args") /\
  _callback (snd (set_key_callback refuses_three_args three_args registered)) =
    three_args /\
  _listener (snd (set_key_callback refuses_three_args three_args registered)) =
    _listener registered /\
  (_listener registered = None ->
   forall fuel enable,
     enable_key_callback ends_after_three fuel enable
       (snd (set_key_callback refuses_three_args three_args registered)) =
     Some (Raise (ValueError "Callback set but listener not found"),
           snd (set_key_callback refuses_three_args three_args registered))) /\
  (forall l,
      _listener registered = Some l -> started l = false ->
      forall fuel enable,
        truthy enable = true ->
        exists l',
          enable_key_callback ends_after_three fuel enable
            (snd (set_key_callback refuses_three_args three_args registered)) =
          Some (Return PyNone,
                with_listener
                  (snd (set_key_callback refuses_three_args three_args
                          registered)) l') /\
          started l' = true /\ on_press l' = on_press l).
Proof.
  apply (set_key_callback_refused ends_after_three refuses_three_args
           three_args (ValueError "three_args") registered); reflexivity.
Defined.

Lemma enable_key_callback_starts_witness :
  exists l,
    enable_key_callback ends_after_three 0 (PyBool true)
      (snd (set_key_callback refuses_three_args on_key
              (init (sdk_with [a_keyboard])))) =
    Some (Return PyNone,
          with_listener
            (snd (set_key_callback refuses_three_args on_key
                    (init (sdk_with [a_keyboard])))) l) /\
    running
      (with_listener
         (snd (set_key_callback refuses_three_args on_key
                 (init (sdk_with [a_keyboard])))) l) l.
Proof.
  apply (enable_key_callback_starts ends_after_three refuses_three_args 0
           on_key (init (sdk_with [a_keyboard]))); reflexivity.
Defined.

Lemma set_ind_led_color_well_formed_witness :
  set_ind_led_color sample_keys always_accepts
    (PyDict [(PyStr "A", PyTuple [PyInt 0; PyInt 255; PyInt 1000]);
             (PyStr "Fn", PyTuple [PyNone; PyStr "red"; PyInt 7]);
             (PyStr "Escape",
              PyTuple [PyBool true; PyInt 4294967297; PyInt (-1)])])
    (init (sdk_with [a_keyboard])) =
  (Return (PyBool true),
   with_library (init (sdk_with [a_keyboard]))
     (submit [led_color 38 (PyInt 0) (PyInt 255) (PyInt 1000);
              led_color 1 (PyInt 1) (PyInt 1) (PyInt (-1))]
        (sdk_with [a_keyboard]))).
Proof.
  apply (set_ind_led_color_well_formed sample_keys always_accepts
           [(PyStr "A", PyTuple [PyInt 0; PyInt 255; PyInt 1000]);
            (PyStr "Fn", PyTuple [PyNone; PyStr "red"; PyInt 7]);
            (PyStr "Escape",
             PyTuple [PyBool true; PyInt 4294967297; PyInt (-1)])]
           (init (sdk_with [a_keyboard]))).
  repeat constructor.
Defined.


Lemma set_ind_led_color_over_all_keys_witness :
  set_ind_led_color sample_keys always_accepts
    (PyDict (all_keys_mapping sample_keys (PyInt 0) (PyInt 0) (PyInt 255)))
    (init (sdk_with [a_keyboard])) =
  (Return (PyBool true),
   with_library (init (sdk_with [a_keyboard]))
     (submit [led_color 1 (PyInt 0) (PyInt 0) (PyInt 255);
              led_color 2 (PyInt 0) (PyInt 0) (PyInt 255);
              led_color 38 (PyInt 0) (PyInt 0) (PyInt 255)]
        (sdk_with [a_keyboard]))).
Proof.
  apply (set_ind_led_color_over_all_keys sample_keys always_accepts
           0 0 255 (init (sdk_with [a_keyboard]))).
  exact sample_keys_NoDup.
Defined.

Lemma set_full_led_color_as_mapping_witness :
  set_full_led_color lit_keys always_accepts
    (PyInt 1) (PyInt 128) (PyInt 254) (init (sdk_with [a_keyboard])) =
  set_ind_led_color lit_keys always_accepts
    (PyDict (all_keys_mapping lit_keys (PyInt 1) (PyInt 128) (PyInt 254)))
    (init (sdk_with [a_keyboard])).
Proof.
  apply (set_full_led_color_as_mapping lit_keys always_accepts 1 128 254
           (init (sdk_with [a_keyboard]))); try lia.
  - exact lit_keys_NoDup.
  - repeat constructor; simpl; discriminate.
Defined.

Lemma run_calls_library_witness :
  devices (library after_sample_calls) = [a_keyboard] /\
  exists more,
    submitted (library after_sample_calls) =
      submitted (library (init (sdk_with [a_keyboard]))) ++ more /\
    List.length more <= List.length (filter is_lighting_call sample_calls).
Proof.
  apply (run_calls_library sample_keys 0 always_accepts ends_after_three
           refuses_three_args 5 sample_calls (init (sdk_with [a_keyboard]))
           after_sample_calls).
  reflexivity.
Defined.

Lemma enable_key_callback_listener_found_witness :
  callback_listener_ok listening /\
  forall fuel' enable out st',
    enable_key_callback ends_after_three fuel' enable listening =
      Some (out, st') ->
    out <> Raise (ValueError "Callback set but listener not found").
Proof.
  apply (enable_key_callback_listener_found sample_keys 0 always_accepts
           ends_after_three refuses_three_args (sdk_with [a_keyboard])
           registering_calls 0 listening); reflexivity.
Defined.

Lemma enable_key_callback_false_not_started_witness :
  enable_key_callback ends_after_three 1 (PyBool false) registered =
  Some (Return PyNone,
        with_listener registered (Listener_stop (new_Listener on_key))).
Proof.
  apply (enable_key_callback_false_not_started ends_after_three 0
           (PyBool false) registered (new_Listener on_key)); reflexivity.
Defined.

Lemma enable_key_callback_again_witness :
  (forall fuel,
      enable_key_callback ends_after_three fuel (PyBool true) listening =
      Some (Raise (VendorError "threads can only be started once"),
            listening)) /\
  (forall fuel off out st',
      truthy off = false ->
      enable_key_callback ends_after_three fuel off listening =
        Some (out, st') ->
      forall fuel',
        enable_key_callback ends_after_three fuel' (PyBool true) st' =
        Some (Raise (VendorError "threads can only be started once"), st')).
Proof.
  apply (enable_key_callback_again ends_after_three (PyBool true)
           listening a_listener).
  - repeat split; reflexivity.
  - reflexivity.
Defined.

Lemma enable_key_callback_falsy_callable_witness :
  _callback (snd (set_key_callback accepts_any empty_handler
                    (init (sdk_with [a_keyboard])))) = empty_handler /\
  enable_key_callback ends_after_three 0 (PyBool true)
    (snd (set_key_callback accepts_any empty_handler
            (init (sdk_with [a_keyboard])))) =
  Some (Raise (ValueError "Callback not set. Please use set_key_callback"),
        snd (set_key_callback accepts_any empty_handler
               (init (sdk_with [a_keyboard])))).
Proof.
  apply (enable_key_callback_falsy_callable ends_after_three accepts_any 0
           empty_handler (PyBool true) (init (sdk_with [a_keyboard])));
    reflexivity.
Defined.
